(** * MigrateRoute: a shallow embedding of mcrouter/lib/routes/MigrateRoute.h

    The route handle sends an operation to the [from_] handle, to the [to_]
    handle, or to both, according to where the current time falls in the
    migration schedule; when both are contacted the two replies are merged
    by the reply type's [worseThan].

    The development follows the header top-down: the integer type of the
    schedule, the collaborators the header includes (reply, operation
    traits, route handles, fibers, folly::dynamic, checkLogic), the class
    itself, and then the properties. *)

From stdpp Require Import gmap strings list.
From Stdlib Require Import ZArith Lia.

Set Warnings "-register-all".
#[local] Open Scope Z_scope.

(** ** time_t

    [time_t] is a signed 64-bit integer on the platforms mcrouter builds
    for. Values are carried as [Z]; the two arithmetic operations the
    header uses reduce their result to the 64-bit two's-complement range.
    Signed overflow is undefined in C++, so every statement about a
    threshold below assumes that the threshold is representable, in which
    case the reduction is the identity ([wrap_in_range]). *)
Module TimeT.

Definition t : Type := Z.

Definition min_value : Z := - 2 ^ 63.
Definition max_value : Z := 2 ^ 63 - 1.

Definition in_range (z : Z) : Prop := min_value <= z <= max_value.

Definition wrap (z : Z) : t := (z + 2 ^ 63) mod 2 ^ 64 - 2 ^ 63.

Definition add (a b : t) : t := wrap (a + b).
Definition mul (a b : t) : t := wrap (a * b).

End TimeT.

(** ** Collaborators of the route handle *)

(** The reply type is only consumed through [worseThan]
    (mcrouter/lib/McReply.h is not part of the header). *)
Class ReplyIf (Reply : Type) := {
  worseThan : Reply -> Reply -> bool
}.

(** The contract the header relies on for the comparison: it is the
    strict part of an order, so two replies are never each worse than the
    other. *)
Definition worseThan_asymmetric `{ReplyIf Reply} : Prop :=
  forall a b : Reply, worseThan a b = true -> worseThan b a = false.

(** [DeleteLike<Operation>] of mcrouter/lib/OperationTraits.h: the
    compile-time classification that selects between the two overloads of
    [routeMask]. *)
Class OperationTraits (Operation : Type) := {
  DeleteLike : Operation -> bool
}.

(** The two members a call can be made through. *)
Inductive Dest : Type := FromHandle | ToHandle.

#[global] Instance Dest_eq_dec : EqDecision Dest.
Proof. solve_decision. Defined.

(** ** Dispatch: calls made on the destination handles

    A computation that may invoke destination handles threads the log of
    the calls made so far; a call appends the member it went through. *)
Definition Dispatch (A : Type) : Type := list Dest -> A * list Dest.

Definition dret {A} (a : A) : Dispatch A := fun log => (a, log).

Definition dbind {A B} (m : Dispatch A) (k : A -> Dispatch B) : Dispatch B :=
  fun log => let (a, log') := m log in k a log'.

Notation "x <- m ;; k" := (dbind m (fun x => k))
  (at level 100, m at next level, right associativity).

Definition calls {A} (m : Dispatch A) : list Dest := snd (m []).
Definition result {A} (m : Dispatch A) : A := fst (m []).

(** Number of calls that went through member [d]. *)
Definition call_count (d : Dest) (log : list Dest) : nat :=
  length (filter (fun x => x = d) log).

(** ** fiber::forEach *)

(** Order in which the two tasks of a dual dispatch complete. *)
Inductive Completion : Type := FromFirst | ToFirst.

Definition completion_ids (c : Completion) : list nat :=
  match c with
  | FromFirst => [0; 1]
  | ToFirst => [1; 0]
  end%nat.

Fixpoint startAll {A} (fs : list (Dispatch A)) : Dispatch (list A) :=
  match fs with
  | [] => dret []
  | f :: fs' => a <- f ;; rest <- startAll fs' ;; dret (a :: rest)
  end.

(** Modelled from the spec: [fiber::forEach] of mcrouter/lib/fibers/WhenN.h,
    which the header calls but which is not part of it. Section 5 of the
    specification gives its contract: run the independent operations
    concurrently and deliver each completion with its originating slot
    identity; the order of completion is not guaranteed. Every task is
    started once, in index order; [done] lists the task ids in the order
    they complete, and the callback [f] is run on each completion in that
    order, updating what it captured by reference ([acc]). *)
Definition forEach {A S} (fs : list (Dispatch A)) (done : list nat)
    (f : nat -> A -> S -> S) (acc : S) : Dispatch S :=
  rs <- startAll fs ;;
  dret (fold_left
          (fun s id => match rs !! id with
                       | Some r => f id r s
                       | None => s
                       end)
          done acc).

(** ** The class *)
Section MigrateRoute.

Context {Request Reply Operation : Type}.
Context `{!ReplyIf Reply} `{!OperationTraits Operation}.

(** [RouteHandleIf]: the interface of a destination, reduced to the one
    method the header calls. *)
Record RouteHandleIf : Type := mkRouteHandle {
  handle_route : Request -> Operation -> Reply
}.

Record MigrateRoute : Type := mkMigrateRoute {
  from_ : RouteHandleIf;
  to_ : RouteHandleIf;
  startTimeSec_ : TimeT.t;
  intervalSec_ : TimeT.t;
  tp_ : Request -> TimeT.t
}.

Definition routeName : string := "migrate".

Definition kFromMask : Z := 1.
Definition kToMask : Z := 2.

Definition handle (r : MigrateRoute) (d : Dest) : RouteHandleIf :=
  match d with
  | FromHandle => from_ r
  | ToHandle => to_ r
  end.

(** [from_->route(req, Operation())] and [to_->route(req, Operation())]. *)
Definition invoke (r : MigrateRoute) (d : Dest) (req : Request)
    (op : Operation) : Dispatch Reply :=
  fun log => (handle_route (handle r d) req op, log ++ [d]).

(** The overload for [DeleteLike] operations. *)
Definition routeMask_deleteLike (r : MigrateRoute) (req : Request) : Z :=
  let curr := tp_ r req in
  if curr <? startTimeSec_ r then kFromMask
  else if curr <? TimeT.add (startTimeSec_ r) (TimeT.mul 2 (intervalSec_ r))
       then Z.lor kFromMask kToMask
       else kToMask.

(** The overload for every other operation. *)
Definition routeMask_other (r : MigrateRoute) (req : Request) : Z :=
  let curr := tp_ r req in
  if curr <? TimeT.add (startTimeSec_ r) (intervalSec_ r) then kFromMask
  else kToMask.

(** Overload resolution on the operation tag. *)
Definition routeMask (r : MigrateRoute) (req : Request) (op : Operation) : Z :=
  if DeleteLike op then routeMask_deleteLike r req
  else routeMask_other r req.

Definition couldRouteTo (r : MigrateRoute) (req : Request) (op : Operation)
    : Dispatch (list RouteHandleIf) :=
  let mask := routeMask r req op in
  let ret := [] in
  let ret := if negb (Z.land mask kFromMask =? 0) then ret ++ [from_ r] else ret in
  let ret := if negb (Z.land mask kToMask =? 0) then ret ++ [to_ r] else ret in
  dret ret.

(** The completion callback of [route]: [reply] is the captured
    [folly::Optional<Reply>]. *)
Definition onCompletion (id : nat) (newReply : Reply) (reply : option Reply)
    : option Reply :=
  match reply with
  | None => Some newReply
  | Some cur => if worseThan newReply cur then Some newReply else reply
  end.

(** [route]. The result is [None] when [reply.value()] would be taken
    on an empty optional. [done] is the order in which the fiber
    scheduler completes the two tasks of the dual dispatch. *)
Definition route (r : MigrateRoute) (done : Completion) (req : Request)
    (op : Operation) : Dispatch (option Reply) :=
  let mask := routeMask r req op in
  if mask =? kFromMask then
    x <- invoke r FromHandle req op ;; dret (Some x)
  else if mask =? kToMask then
    x <- invoke r ToHandle req op ;; dret (Some x)
  else
    let fs := [invoke r FromHandle req op; invoke r ToHandle req op] in
    reply <- forEach fs (completion_ids done) onCompletion None ;;
    dret reply.

End MigrateRoute.

Arguments RouteHandleIf : clear implicits.
Arguments MigrateRoute : clear implicits.

(** ** Construction from configuration *)

(** What a constructor call can end in: the object, a C++ exception
    (recoverable by the caller), or a failed [assert] (the process
    aborts). *)
Inductive exn : Type :=
| logic_error (what : string)
| TypeError
| out_of_range.

Inductive Outcome (A : Type) : Type :=
| Returns (a : A)
| Throws (e : exn)
| Aborts.

Arguments Returns {A} a.
Arguments Throws {A} e.
Arguments Aborts {A}.

#[global] Instance Outcome_ret : MRet Outcome := fun A a => Returns a.

#[global] Instance Outcome_bind : MBind Outcome := fun A B k m =>
  match m with
  | Returns a => k a
  | Throws e => Throws e
  | Aborts => Aborts
  end.

(** [folly::dynamic], with the members the constructor uses. Object keys
    are strings, as in a parsed JSON configuration. A double is carried by
    its bit pattern; the constructor never looks at it. *)
Module folly.

Inductive dynamic : Type :=
| NULLT
| ARRAY (elems : list dynamic)
| BOOL (b : bool)
| DOUBLE (bits : Z)
| INT64 (z : Z)
| OBJECT (items : gmap string dynamic)
| STRING (s : string).

Definition isObject (d : dynamic) : bool :=
  match d with OBJECT _ => true | _ => false end.

Definition isInt (d : dynamic) : bool :=
  match d with INT64 _ => true | _ => false end.

(** [count(key)]: number of entries under [key]; a [TypeError] on
    anything but an object. *)
Definition count (d : dynamic) (key : string) : Outcome nat :=
  match d with
  | OBJECT items => Returns (if items !! key is Some _ then 1%nat else 0%nat)
  | _ => Throws TypeError
  end.

(** [operator[]] on a const dynamic with a string key. *)
Definition at_ (d : dynamic) (key : string) : Outcome dynamic :=
  match d with
  | OBJECT items =>
      match items !! key with
      | Some v => Returns v
      | None => Throws out_of_range
      end
  | _ => Throws TypeError
  end.

(** [asInt()]. The constructor reaches it only on values for which
    [isInt] holds; the conversions folly applies to booleans, doubles
    and strings are not modelled and are given as a [TypeError], as for
    the remaining types. *)
Definition asInt (d : dynamic) : Outcome Z :=
  match d with
  | INT64 z => Returns z
  | _ => Throws TypeError
  end.

End folly.

(** Modelled from the spec: [checkLogic] of mcrouter/lib/fbi/cpp/util.h,
    which the header calls but which is not part of it. Sections 4.3 and 7
    of the specification: a violated check is a descriptive, recoverable
    configuration error surfaced at construction time; it is raised as a
    [std::logic_error] carrying the message. *)
Definition checkLogic (cond : bool) (msg : string) : Outcome unit :=
  if cond then Returns tt else Throws (logic_error msg).

(** [assert(p != nullptr)] on a [shared_ptr]: the pointee, or an abort. *)
Definition assert_not_null {A} (p : option A) : Outcome A :=
  match p with
  | Some a => Returns a
  | None => Aborts
  end.

Section Construction.

Context {Request Reply Operation : Type}.

Abbreviation Handle := (RouteHandleIf Request Reply Operation).
Abbreviation Route := (MigrateRoute Request Reply Operation).

(** [RouteHandleFactory<RouteHandleIf>], of
    mcrouter/lib/config/RouteHandleFactory.h: [create] resolves a
    sub-configuration into a [shared_ptr] (possibly null), or throws. *)
Record RouteHandleFactory : Type := mkFactory {
  create : folly.dynamic -> Outcome (option Handle)
}.

(** The constructor taking the handles and the schedule. *)
Definition MigrateRoute_direct (fh th : option Handle)
    (start_time_sec interval_sec : TimeT.t) (tp : Request -> TimeT.t)
    : Outcome Route :=
  from ← assert_not_null fh;
  to ← assert_not_null th;
  mret (mkMigrateRoute from to start_time_sec interval_sec tp).

(** The constructor taking a factory and a configuration. *)
Definition MigrateRoute_config (factory : RouteHandleFactory)
    (json : folly.dynamic) (tp : Request -> TimeT.t) : Outcome Route :=
  let intervalSec := 3600 in
  _ ← checkLogic (folly.isObject json) "MigrateRoute should be object";
  n ← folly.count json "start_time";
  valid ← (if negb (Nat.eqb n 0)
           then v ← folly.at_ json "start_time"; mret (folly.isInt v)
           else mret false);
  _ ← checkLogic valid "MigrateRoute has no/invalid start_time";
  n ← folly.count json "from";
  _ ← checkLogic (negb (Nat.eqb n 0)) "MigrateRoute has no 'from' route";
  n ← folly.count json "to";
  _ ← checkLogic (negb (Nat.eqb n 0)) "MigrateRoute has no 'to' route";
  v ← folly.at_ json "start_time";
  startTimeSec ← folly.asInt v;
  n ← folly.count json "interval";
  intervalSec ← (if negb (Nat.eqb n 0)
                 then v ← folly.at_ json "interval";
                      _ ← checkLogic (folly.isInt v)
                            "MigrateRoute interval is not integer";
                      folly.asInt v
                 else mret intervalSec);
  jfrom ← folly.at_ json "from";
  from ← create factory jfrom;
  jto ← folly.at_ json "to";
  to ← create factory jto;
  from ← assert_not_null from;
  to ← assert_not_null to;
  mret (mkMigrateRoute from to startTimeSec intervalSec tp).

End Construction.

Arguments RouteHandleFactory : clear implicits.

(** ** Vocabulary of the properties *)

Section Vocabulary.

Context {Request Reply Operation : Type}.
Context `{!ReplyIf Reply} `{!OperationTraits Operation}.

Abbreviation Handle := (RouteHandleIf Request Reply Operation).
Abbreviation Route := (MigrateRoute Request Reply Operation).

(** The mask bit of a member, and the test [couldRouteTo] applies to it. *)
Definition mask_of (d : Dest) : Z :=
  match d with
  | FromHandle => kFromMask
  | ToHandle => kToMask
  end.

Definition selects (mask : Z) (d : Dest) : bool :=
  negb (Z.land mask (mask_of d) =? 0).

(** The members [routeMask] selects, in the order [from_], [to_]. *)
Definition selected (r : Route) (req : Request) (op : Operation) : list Dest :=
  filter (fun d => selects (routeMask r req op) d = true) [FromHandle; ToHandle].

(** The member whose task completes first, and the one that completes
    second, under a completion order. *)
Definition first_done (c : Completion) : Dest :=
  match c with
  | FromFirst => FromHandle
  | ToFirst => ToHandle
  end.

Definition second_done (c : Completion) : Dest :=
  match c with
  | FromFirst => ToHandle
  | ToFirst => FromHandle
  end.

(** The reply a member's handle gives to the operation. *)
Definition reply_of (r : Route) (d : Dest) (req : Request) (op : Operation)
    : Reply :=
  handle_route (handle r d) req op.

(** Reconciliation of two replies: the completion callback of [route] run
    on [a] and then on [b], starting from the empty optional. *)
Definition reconcile (a b : Reply) : option Reply :=
  onCompletion 1 b (onCompletion 0 a None).

(** Neither reply is strictly worse than the other. *)
Definition tied (a b : Reply) : bool :=
  negb (worseThan a b) && negb (worseThan b a).

(** [x] is one of [a], [b] and neither of them is strictly worse than it. *)
Definition worst_of (x a b : Reply) : Prop :=
  (x = a \/ x = b) /\ worseThan a x = false /\ worseThan b x = false.

(** [x] is one of [a], [b] and it is strictly worse than neither. *)
Definition not_worse_of (x a b : Reply) : Prop :=
  (x = a \/ x = b) /\ worseThan x a = false /\ worseThan x b = false.

(** A schedule all of whose thresholds are representable in [time_t]. *)
Definition representable (r : Route) : Prop :=
  TimeT.in_range (2 * intervalSec_ r) /\
  TimeT.in_range (startTimeSec_ r + intervalSec_ r) /\
  TimeT.in_range (startTimeSec_ r + 2 * intervalSec_ r).

End Vocabulary.

(** The messages of the constructor's checks. *)
Definition diagnostics : list string :=
  [ "MigrateRoute should be object";
    "MigrateRoute has no/invalid start_time";
    "MigrateRoute has no 'from' route";
    "MigrateRoute has no 'to' route";
    "MigrateRoute interval is not integer" ].

(** The configurations the constructor has to reject: not an object,
    [start_time] absent or not an integer, [interval] present but not an
    integer, [from] or [to] missing. *)
Definition present (items : gmap string folly.dynamic) (key : string) : bool :=
  if items !! key is Some _ then true else false.

Definition present_int (items : gmap string folly.dynamic) (key : string) : bool :=
  if items !! key is Some v then folly.isInt v else false.

Definition config_invalid (json : folly.dynamic) : bool :=
  match json with
  | folly.OBJECT items =>
      negb (present_int items "start_time")
      || (present items "interval" && negb (present_int items "interval"))
      || negb (present items "from")
      || negb (present items "to")
  | _ => true
  end.

(** The interval a configuration asks for: its [interval] when that is an
    integer, one hour otherwise. *)
Definition config_interval (items : gmap string folly.dynamic) : Z :=
  match items !! "interval" with
  | Some (folly.INT64 i) => i
  | _ => 3600
  end.

(** The keys the constructor reads. *)
Definition config_keys : list string :=
  ["start_time"; "interval"; "from"; "to"].

(** ** A concrete instance

    Requests carry the time at which they are routed, replies carry a
    badness and the name of the handle that produced them, and the
    operations are those of the memcache protocol that matter here. *)
Module Scenario.

Record TestRequest : Type := mkRequest { key : string; now : Z }.

Record TestReply : Type := mkReply { awfulness : Z; origin : string }.

Inductive TestOperation : Type := op_get | op_set | op_delete.

#[global] Instance TestReply_if : ReplyIf TestReply :=
  {| worseThan a b := awfulness b <? awfulness a |}.

#[global] Instance TestOperation_traits : OperationTraits TestOperation :=
  {| DeleteLike op := match op with op_delete => true | _ => false end |}.

Abbreviation TestHandle := (RouteHandleIf TestRequest TestReply TestOperation).
Abbreviation TestRoute := (MigrateRoute TestRequest TestReply TestOperation).

(** A handle that answers every operation with the same reply. *)
Definition constant_handle (rep : TestReply) : TestHandle :=
  mkRouteHandle (fun _ _ => rep).

Definition good : TestReply := mkReply 0 "from".
Definition bad : TestReply := mkReply 1 "to".

(** [from_] answers with [good], [to_] with [bad]. *)
Definition migration (start_time interval : Z) : TestRoute :=
  mkMigrateRoute (constant_handle good) (constant_handle bad)
                 start_time interval now.

(** Both handles answer with the same badness. *)
Definition tied_migration (start_time interval : Z) : TestRoute :=
  mkMigrateRoute (constant_handle (mkReply 0 "from"))
                 (constant_handle (mkReply 0 "to"))
                 start_time interval now.

Definition at_time (t : Z) : TestRequest := mkRequest "k" t.

(** A factory that resolves every sub-configuration that is a string into
    a handle answering with that string as origin, and anything else into
    a null pointer. *)
Definition test_factory : RouteHandleFactory TestRequest TestReply TestOperation :=
  mkFactory (fun json =>
    match json with
    | folly.STRING s => Returns (Some (constant_handle (mkReply 0 s)))
    | _ => Returns None
    end).

Definition config (fields : list (string * folly.dynamic)) : folly.dynamic :=
  folly.OBJECT (list_to_map fields).

(** A configuration without [interval]. *)
Definition valid_config : folly.dynamic :=
  config [("start_time", folly.INT64 1000);
          ("from", folly.STRING "old"); ("to", folly.STRING "new")].

(** The entries of a configuration of the scenario, with the [interval]
    given or without one. *)
Definition scenario_items (interval : option Z) : gmap string folly.dynamic :=
  list_to_map
    (match interval with
     | Some i => [("interval", folly.INT64 i)]
     | None => []
     end
     ++ [("start_time", folly.INT64 1000);
         ("from", folly.STRING "old"); ("to", folly.STRING "new")]).

(** The route the test factory builds from [scenario_items]. *)
Definition scenario_route (interval : Z) : TestRoute :=
  mkMigrateRoute (constant_handle (mkReply 0 "old"))
                 (constant_handle (mkReply 0 "new")) 1000 interval now.

(** A factory that resolves strings as [test_factory] does, null into a
    null pointer, and throws on anything else. *)
Definition strict_factory : RouteHandleFactory TestRequest TestReply TestOperation :=
  mkFactory (fun json =>
    match json with
    | folly.STRING s => Returns (Some (constant_handle (mkReply 0 s)))
    | folly.NULLT => Returns None
    | _ => Throws (logic_error "unknown route")
    end).

End Scenario.

(** * Properties *)

(** ** time_t arithmetic *)

Lemma wrap_in_range z : TimeT.in_range z -> TimeT.wrap z = z.
Proof.
  unfold TimeT.in_range, TimeT.wrap, TimeT.min_value, TimeT.max_value.
  intros Hz. rewrite Z.mod_small by lia. lia.
Qed.

Lemma wrap_range z : TimeT.in_range (TimeT.wrap z).
Proof.
  unfold TimeT.in_range, TimeT.wrap, TimeT.min_value, TimeT.max_value.
  pose proof (Z.mod_pos_bound (z + 2 ^ 63) (2 ^ 64)). lia.
Qed.

Lemma add_exact a b : TimeT.in_range (a + b) -> TimeT.add a b = a + b.
Proof. apply wrap_in_range. Qed.

Lemma mul_exact a b : TimeT.in_range (a * b) -> TimeT.mul a b = a * b.
Proof. apply wrap_in_range. Qed.

(** The end of the window of delete-like operations, when representable. *)
Lemma window_end_exact s i :
  TimeT.in_range (2 * i) -> TimeT.in_range (s + 2 * i) ->
  TimeT.add s (TimeT.mul 2 i) = s + 2 * i.
Proof.
  intros H2 Hs. rewrite (mul_exact 2 i) by exact H2. now apply add_exact.
Qed.

(** ** Completion orders *)

(** The two completion orders are all the orders in which two tasks can
    complete. *)
Lemma completion_ids_all (ids : list nat) :
  ids ≡ₚ [0; 1]%nat <-> exists c, ids = completion_ids c.
Proof.
  split.
  - intros Hp. symmetry in Hp.
    destruct (Permutation_length_2_inv Hp) as [-> | ->].
    + now exists FromFirst.
    + now exists ToFirst.
  - intros [[] ->]; cbn; [reflexivity | apply perm_swap].
Qed.

(** ** The migration window policy *)

Section Policy.

Context {Request Reply Operation : Type}.
Context `{!OperationTraits Operation}.

Abbreviation Route := (MigrateRoute Request Reply Operation).

Implicit Types (r : Route) (req : Request) (op : Operation).

Lemma lor_from_to : Z.lor kFromMask kToMask = 3.
Proof. reflexivity. Qed.

(** Every mask [routeMask] computes is one of the three non-empty ones. *)
Lemma routeMask_cases r req op :
  routeMask r req op = kFromMask \/
  routeMask r req op = kToMask \/
  routeMask r req op = Z.lor kFromMask kToMask.
Proof.
  unfold routeMask, routeMask_deleteLike, routeMask_other.
  destruct (DeleteLike op); repeat case_match; auto.
Qed.

Lemma selects_from_mask m :
  m = kFromMask \/ m = kToMask \/ m = Z.lor kFromMask kToMask ->
  selects m FromHandle = negb (m =? kToMask) /\
  selects m ToHandle = negb (m =? kFromMask).
Proof. intros [-> | [-> | ->]]; split; reflexivity. Qed.

(** C3, as amended: for a delete-like operation and a schedule whose
    window end [startTime + 2 * interval] is representable, the decision
    is FROM when [now < startTime], BOTH when
    [startTime <= now < startTime + 2 * interval], and TO when
    [now >= startTime] and [now >= startTime + 2 * interval]. *)
Theorem routeMask_deleteLike_regions r req op :
  DeleteLike op = true ->
  TimeT.in_range (2 * intervalSec_ r) ->
  TimeT.in_range (startTimeSec_ r + 2 * intervalSec_ r) ->
  (tp_ r req < startTimeSec_ r -> routeMask r req op = kFromMask) /\
  (startTimeSec_ r <= tp_ r req < startTimeSec_ r + 2 * intervalSec_ r ->
   routeMask r req op = Z.lor kFromMask kToMask) /\
  (startTimeSec_ r <= tp_ r req ->
   tp_ r req >= startTimeSec_ r + 2 * intervalSec_ r ->
   routeMask r req op = kToMask).
Proof.
  intros Hdel H2 Hend. unfold routeMask, routeMask_deleteLike.
  rewrite Hdel, window_end_exact by assumption.
  repeat split; intros;
    destruct (Z.ltb_spec (tp_ r req) (startTimeSec_ r));
    destruct (Z.ltb_spec (tp_ r req) (startTimeSec_ r + 2 * intervalSec_ r));
    try reflexivity; lia.
Qed.

(** C4: for an operation that is not delete-like and a schedule whose
    switch point [startTime + interval] is representable, the decision is
    FROM when [now < startTime + interval] and TO when
    [now >= startTime + interval]; the switch point itself belongs to the
    TO region. *)
Theorem routeMask_other_regions r req op :
  DeleteLike op = false ->
  TimeT.in_range (startTimeSec_ r + intervalSec_ r) ->
  (tp_ r req < startTimeSec_ r + intervalSec_ r ->
   routeMask r req op = kFromMask) /\
  (tp_ r req >= startTimeSec_ r + intervalSec_ r ->
   routeMask r req op = kToMask) /\
  (tp_ r req = startTimeSec_ r + intervalSec_ r ->
   routeMask r req op = kToMask).
Proof.
  intros Hdel Hsw. unfold routeMask, routeMask_other.
  rewrite Hdel, add_exact by assumption.
  repeat split; intros;
    destruct (Z.ltb_spec (tp_ r req) (startTimeSec_ r + intervalSec_ r));
    try reflexivity; lia.
Qed.

(** C8, as amended: whenever [now < startTime] the decision is FROM for a
    delete-like operation under every schedule, and for any other
    operation under every schedule whose interval is not negative (and
    whose switch point is representable). *)
Theorem routeMask_before_start r req op :
  tp_ r req < startTimeSec_ r ->
  (DeleteLike op = false ->
   0 <= intervalSec_ r /\ TimeT.in_range (startTimeSec_ r + intervalSec_ r)) ->
  routeMask r req op = kFromMask.
Proof.
  intros Hnow Hother. unfold routeMask, routeMask_deleteLike, routeMask_other.
  destruct (DeleteLike op).
  - destruct (Z.ltb_spec (tp_ r req) (startTimeSec_ r)); [reflexivity | lia].
  - destruct (Hother eq_refl) as [Hi Hsw]. rewrite add_exact by exact Hsw.
    destruct (Z.ltb_spec (tp_ r req) (startTimeSec_ r + intervalSec_ r));
      [reflexivity | lia].
Qed.

End Policy.

(** ** Dispatch and reconciliation *)

Section Dispatching.

Context {Request Reply Operation : Type}.
Context `{!ReplyIf Reply} `{!OperationTraits Operation}.

Abbreviation Route := (MigrateRoute Request Reply Operation).

Implicit Types (r : Route) (req : Request) (op : Operation).
Implicit Types (done : Completion) (log : list Dest) (a b x : Reply).

(** What reconciliation keeps: the second reply when it is strictly worse
    than the first, the first one otherwise. *)
Lemma reconcile_eq a b :
  reconcile a b = Some (if worseThan b a then b else a).
Proof. unfold reconcile, onCompletion. now destruct (worseThan b a). Qed.

Lemma route_from r done req op log :
  routeMask r req op = kFromMask ->
  route r done req op log
  = (Some (reply_of r FromHandle req op), log ++ [FromHandle]).
Proof. intros Hm. unfold route. rewrite Hm. reflexivity. Qed.

Lemma route_to r done req op log :
  routeMask r req op = kToMask ->
  route r done req op log
  = (Some (reply_of r ToHandle req op), log ++ [ToHandle]).
Proof. intros Hm. unfold route. rewrite Hm. reflexivity. Qed.

(** The dual dispatch: both handles are called, [from_] first, and the
    replies are reconciled in the order of completion. *)
Lemma route_both r done req op log :
  routeMask r req op = Z.lor kFromMask kToMask ->
  route r done req op log
  = (reconcile (reply_of r (first_done done) req op)
               (reply_of r (second_done done) req op),
     log ++ [FromHandle; ToHandle]).
Proof.
  intros Hm. unfold route. rewrite Hm.
  change (Z.lor kFromMask kToMask =? kFromMask) with false.
  change (Z.lor kFromMask kToMask =? kToMask) with false.
  rewrite reconcile_eq.
  destruct done; cbn; unfold reply_of; cbn; rewrite <- app_assoc; cbn;
    now destruct (worseThan _ _).
Qed.

(** [route] only appends to the log of calls, and what it appends are the
    members the mask selects. *)
Lemma route_log r done req op log :
  snd (route r done req op log) = log ++ selected r req op.
Proof.
  unfold selected.
  destruct (routeMask_cases r req op) as [Hm | [Hm | Hm]].
  - rewrite route_from, Hm by exact Hm. reflexivity.
  - rewrite route_to, Hm by exact Hm. reflexivity.
  - rewrite route_both, Hm by exact Hm. reflexivity.
Qed.

Lemma route_calls r done req op :
  calls (route r done req op) = selected r req op.
Proof. unfold calls. now rewrite route_log. Qed.

Lemma selected_count r req op d :
  call_count d (selected r req op)
  = if selects (routeMask r req op) d then 1%nat else 0%nat.
Proof.
  unfold selected.
  destruct (routeMask_cases r req op) as [-> | [-> | ->]]; now destruct d.
Qed.

(** C10: under every schedule the computed destination set is not empty:
    the mask is FROM, TO or BOTH, [couldRouteTo] returns one or two
    handles, and [route] makes at least one call. *)
Theorem routeMask_nonempty r done req op :
  (routeMask r req op = kFromMask \/
   routeMask r req op = kToMask \/
   routeMask r req op = Z.lor kFromMask kToMask) /\
  (1 <= length (result (couldRouteTo r req op)) <= 2)%nat /\
  (1 <= length (calls (route r done req op)))%nat.
Proof.
  split; [apply routeMask_cases |]. rewrite route_calls.
  unfold result, couldRouteTo, selected, dret.
  destruct (routeMask_cases r req op) as [-> | [-> | ->]]; vm_compute; lia.
Qed.

(** C7: [route] calls each member the mask selects exactly once and a
    member it does not select not at all, whatever the completion order;
    calls made before are left in the log. *)
Theorem route_calls_selected_once r done req op :
  (forall log,
     snd (route r done req op log) = log ++ calls (route r done req op)) /\
  (forall d,
     call_count d (calls (route r done req op))
     = if selects (routeMask r req op) d then 1%nat else 0%nat).
Proof.
  split.
  - intros log. now rewrite route_log, route_calls.
  - intros d. rewrite route_calls. apply selected_count.
Qed.

(** C5: [couldRouteTo] returns the handles of exactly the members [route]
    calls for the same request and operation, in the same order, and makes
    no call itself; when both are selected the result is
    [from_] followed by [to_]. *)
Theorem couldRouteTo_matches_route r done req op :
  (forall log,
     couldRouteTo r req op log
     = (handle r <$> calls (route r done req op), log)) /\
  (routeMask r req op = Z.lor kFromMask kToMask ->
   result (couldRouteTo r req op) = [from_ r; to_ r]).
Proof.
  split.
  - intros log. rewrite route_calls. unfold couldRouteTo, selected, dret.
    destruct (routeMask_cases r req op) as [-> | [-> | ->]]; reflexivity.
  - intros Hm. unfold result, couldRouteTo. rewrite Hm. reflexivity.
Qed.

(** The reply of a dual dispatch, for a comparison that is asymmetric. *)
Lemma route_both_result r done req op :
  worseThan_asymmetric ->
  routeMask r req op = Z.lor kFromMask kToMask ->
  let a := reply_of r (first_done done) req op in
  let b := reply_of r (second_done done) req op in
  exists x,
    result (route r done req op) = Some x /\
    x = (if worseThan b a then b else a) /\
    worst_of x a b.
Proof.
  intros Hasym Hm a b. unfold result. rewrite route_both by exact Hm.
  fold a b. rewrite reconcile_eq. cbn.
  eexists; split; [reflexivity |]. split; [reflexivity |].
  assert (forall c : Reply, worseThan c c = false) as Hirr.
  { intros c. destruct (worseThan c c) eqn:E; [| reflexivity].
    now rewrite (Hasym c c E) in E. }
  unfold worst_of. destruct (worseThan b a) eqn:Hba.
  - rewrite (Hasym b a Hba), Hirr. auto.
  - rewrite Hba, Hirr. auto.
Qed.

(** C1, as amended: in the dual dispatch, with [a] the reply that
    completes first and [b] the one that completes second, [route] returns
    [b] when [b] is strictly worse than [a] and [a] otherwise. The reply
    returned is therefore the worse of the two, and on a tie it is the
    first-computed one. *)
Theorem route_dual_returns_worse r done req op :
  worseThan_asymmetric ->
  routeMask r req op = Z.lor kFromMask kToMask ->
  let a := reply_of r (first_done done) req op in
  let b := reply_of r (second_done done) req op in
  exists x,
    result (route r done req op) = Some x /\
    x = (if worseThan b a then b else a) /\
    worst_of x a b /\
    (tied a b = true -> x = a).
Proof.
  intros Hasym Hm a b.
  destruct (route_both_result r done req op Hasym Hm) as (x & Hx & Hif & Hw).
  fold a b in Hif, Hw. exists x. repeat split; try assumption; try apply Hw.
  unfold tied. intros Ht. apply andb_true_iff in Ht as [_ Hba].
  apply negb_true_iff in Hba. now rewrite Hba in Hif.
Qed.

(** C2: with [startTime = 1000] and [interval = 100], a delete-like
    operation routed at [now = 1050] is sent to both members, each is
    called once, and the reply returned is the worse of the two. *)
Theorem route_delete_inside_window r done req op :
  worseThan_asymmetric ->
  startTimeSec_ r = 1000 -> intervalSec_ r = 100 -> tp_ r req = 1050 ->
  DeleteLike op = true ->
  routeMask r req op = Z.lor kFromMask kToMask /\
  calls (route r done req op) = [FromHandle; ToHandle] /\
  call_count FromHandle (calls (route r done req op)) = 1%nat /\
  call_count ToHandle (calls (route r done req op)) = 1%nat /\
  exists x,
    result (route r done req op) = Some x /\
    worst_of x (reply_of r FromHandle req op) (reply_of r ToHandle req op).
Proof.
  intros Hasym Hs Hi Hnow Hdel.
  assert (routeMask r req op = Z.lor kFromMask kToMask) as Hm.
  { unfold routeMask, routeMask_deleteLike. rewrite Hdel, Hs, Hi, Hnow.
    reflexivity. }
  split; [exact Hm |].
  assert (calls (route r done req op) = [FromHandle; ToHandle]) as Hc.
  { rewrite route_calls. unfold selected. rewrite Hm. reflexivity. }
  rewrite Hc. repeat split; try reflexivity.
  destruct (route_both_result r done req op Hasym Hm) as (x & Hx & _ & Hw).
  exists x. split; [exact Hx |].
  destruct done; cbn in Hw; [exact Hw |].
  destruct Hw as (Hor & H1 & H2). unfold worst_of. tauto.
Qed.

(** C9: for a comparison that is asymmetric, reconciliation gives the
    same reply in either argument order whenever the two replies are not
    tied; the reply [route] returns from a dual dispatch whose two replies
    are not tied is therefore the same whichever task completes first. *)
Theorem reconcile_commutes_when_not_tied :
  worseThan_asymmetric ->
  (forall a b, tied a b = false -> reconcile a b = reconcile b a) /\
  (forall r req op done done',
     routeMask r req op = Z.lor kFromMask kToMask ->
     tied (reply_of r FromHandle req op) (reply_of r ToHandle req op) = false ->
     result (route r done req op) = result (route r done' req op)).
Proof.
  intros Hasym.
  assert (forall a b, tied a b = false -> reconcile a b = reconcile b a) as Hcomm.
  { intros a b Ht. rewrite !reconcile_eq. unfold tied in Ht.
    destruct (worseThan a b) eqn:Hab, (worseThan b a) eqn:Hba;
      try reflexivity; try discriminate.
    now rewrite (Hasym a b Hab) in Hba. }
  split; [exact Hcomm |].
  intros r req op done done' Hm Ht. unfold result.
  rewrite !route_both by exact Hm. cbn.
  destruct done, done'; cbn; try reflexivity.
  - now apply Hcomm.
  - symmetry. now apply Hcomm.
Qed.

End Dispatching.

(** ** Construction from configuration *)

Section ConstructionProperties.

Context {Request Reply Operation : Type}.

Abbreviation Route := (MigrateRoute Request Reply Operation).
Abbreviation Factory := (RouteHandleFactory Request Reply Operation).

Implicit Types (factory : Factory) (json : folly.dynamic).
Implicit Types (tp : Request -> TimeT.t).

(** The constructor, check by check. *)
Lemma MigrateRoute_config_eq factory json tp :
  MigrateRoute_config factory json tp =
  match json with
  | folly.OBJECT items =>
      match items !! "start_time" with
      | Some (folly.INT64 s) =>
          match items !! "from", items !! "to" with
          | None, _ => Throws (logic_error "MigrateRoute has no 'from' route")
          | Some _, None => Throws (logic_error "MigrateRoute has no 'to' route")
          | Some jfrom, Some jto =>
              let build i : Outcome Route :=
                from ← create factory jfrom;
                to ← create factory jto;
                from ← assert_not_null from;
                to ← assert_not_null to;
                mret (mkMigrateRoute from to s i tp) in
              match items !! "interval" with
              | None => build 3600
              | Some (folly.INT64 i) => build i
              | Some _ =>
                  Throws (logic_error "MigrateRoute interval is not integer")
              end
          end
      | _ => Throws (logic_error "MigrateRoute has no/invalid start_time")
      end
  | _ => Throws (logic_error "MigrateRoute should be object")
  end.
Proof.
  destruct json as [| | | | | items |]; try reflexivity.
  unfold MigrateRoute_config; cbn.
  destruct (items !! "start_time") as [[]|]; try reflexivity. cbn.
  destruct (items !! "from") as [jfrom|]; [| reflexivity]. cbn.
  destruct (items !! "to") as [jto|]; [| reflexivity]. cbn.
  destruct (items !! "interval") as [[]|]; reflexivity.
Qed.

(** C6: the constructor ends in a [std::logic_error] carrying one of its
    diagnostics, and not in an abort, whenever the configuration is not an
    object, [start_time] is absent or not an integer, [interval] is
    present but not an integer, or [from] or [to] is missing; a
    configuration without [interval] that passes the checks gives a route
    whose interval is 3600. *)
Theorem MigrateRoute_config_rejects factory json tp :
  (config_invalid json = true ->
   exists msg, msg ∈ diagnostics /\
     MigrateRoute_config factory json tp = Throws (logic_error msg)) /\
  (folly.isObject json = false ->
   MigrateRoute_config factory json tp
   = Throws (logic_error "MigrateRoute should be object")) /\
  (forall items, json = folly.OBJECT items ->
   present_int items "start_time" = false ->
   MigrateRoute_config factory json tp
   = Throws (logic_error "MigrateRoute has no/invalid start_time")) /\
  (forall items s jfrom jto from to, json = folly.OBJECT items ->
   items !! "start_time" = Some (folly.INT64 s) ->
   items !! "interval" = None ->
   items !! "from" = Some jfrom -> items !! "to" = Some jto ->
   create factory jfrom = Returns (Some from) ->
   create factory jto = Returns (Some to) ->
   MigrateRoute_config factory json tp
   = Returns (mkMigrateRoute from to s 3600 tp)).
Proof.
  rewrite MigrateRoute_config_eq. repeat split.
  - unfold config_invalid, present, present_int, diagnostics.
    destruct json as [| | | | | items |];
      try (intros _; eexists; split; [| reflexivity]; set_solver).
    destruct (items !! "start_time") as [[]|]; cbn;
      try (intros _; eexists; split; [| reflexivity]; set_solver).
    destruct (items !! "from"); cbn;
      [| intros _; eexists; split; [| reflexivity]; set_solver].
    destruct (items !! "to"); cbn;
      [| destruct (items !! "interval") as [[]|]; intros _; eexists;
         (split; [| reflexivity]); set_solver].
    destruct (items !! "interval") as [[]|]; cbn;
      try discriminate;
      intros _; eexists; (split; [| reflexivity]); set_solver.
  - destruct json; cbn; try reflexivity; discriminate.
  - intros items -> Hst. unfold present_int in Hst.
    destruct (items !! "start_time") as [[]|]; try reflexivity; discriminate.
  - intros items s jfrom jto from to -> Hs Hi Hf Ht Hcf Hct.
    rewrite Hs, Hf, Ht, Hi. cbn. rewrite Hcf. cbn. rewrite Hct. reflexivity.
Qed.

End ConstructionProperties.

(** ** The concrete instance *)

Section ScenarioProperties.

Import Scenario.

Lemma TestReply_asymmetric : worseThan_asymmetric (Reply := TestReply).
Proof.
  intros a b. cbn. intros Hab.
  apply Z.ltb_lt in Hab. apply Z.ltb_ge. lia.
Qed.

Lemma small_in_range z : -1000000 <= z <= 1000000 -> TimeT.in_range z.
Proof. unfold TimeT.in_range, TimeT.min_value, TimeT.max_value. lia. Qed.

(** The scenario of the specification, [startTime = 1000] and
    [interval = 100]. *)
Example scenario_500 :
  routeMask (migration 1000 100) (at_time 500) op_delete = kFromMask /\
  routeMask (migration 1000 100) (at_time 500) op_get = kFromMask.
Proof. split; reflexivity. Qed.

Example scenario_1050 :
  routeMask (migration 1000 100) (at_time 1050) op_delete = 3 /\
  routeMask (migration 1000 100) (at_time 1050) op_set = kFromMask.
Proof. split; reflexivity. Qed.

Example scenario_1150 :
  routeMask (migration 1000 100) (at_time 1150) op_delete = 3 /\
  routeMask (migration 1000 100) (at_time 1150) op_get = kToMask.
Proof. split; reflexivity. Qed.

Example scenario_1300 :
  routeMask (migration 1000 100) (at_time 1300) op_delete = kToMask /\
  routeMask (migration 1000 100) (at_time 1300) op_get = kToMask.
Proof. split; reflexivity. Qed.

Example scenario_route_1050 :
  route (migration 1000 100) ToFirst (at_time 1050) op_delete []
  = (Some bad, [FromHandle; ToHandle]).
Proof. reflexivity. Qed.

(** On a tie the reply of the task that completes first is kept. *)
Example scenario_tie :
  result (route (tied_migration 1000 100) FromFirst (at_time 1050) op_delete)
  = Some (mkReply 0 "from") /\
  result (route (tied_migration 1000 100) ToFirst (at_time 1050) op_delete)
  = Some (mkReply 0 "to").
Proof. split; reflexivity. Qed.

(** C1 as stated fails: in a dual dispatch whose [to_] reply is strictly
    worse than its [from_] reply, [route] returns the [to_] reply, which
    is not the one that is not worse. *)
Lemma route_dual_returns_worse_counterexample :
  let r := migration 1000 100 in
  let req := at_time 1050 in
  routeMask r req op_delete = Z.lor kFromMask kToMask /\
  result (route r FromFirst req op_delete) = Some bad /\
  worseThan bad good = true /\
  ~ not_worse_of bad (reply_of r FromHandle req op_delete)
                     (reply_of r ToHandle req op_delete).
Proof.
  cbn zeta. repeat split; try reflexivity.
  intros (_ & Hworse & _). vm_compute in Hworse. discriminate.
Qed.

(** C3 as stated fails for a negative interval: at [now = 900] with
    [startTime = 1000] and [interval = -100] the time is at or after
    [startTime + 2 * interval = 800], yet the decision for a delete-like
    operation is FROM and not TO. *)
Lemma routeMask_deleteLike_counterexample :
  let r := migration 1000 (-100) in
  let req := at_time 900 in
  DeleteLike op_delete = true /\
  tp_ r req >= startTimeSec_ r + 2 * intervalSec_ r /\
  routeMask r req op_delete = kFromMask /\
  routeMask r req op_delete <> kToMask.
Proof. cbn zeta. repeat split; try reflexivity; cbn; (lia || discriminate). Qed.

(** C8 as stated fails for a negative interval: at [now = 500] with
    [startTime = 1000] and [interval = -600] the time is before
    [startTime], yet the decision for a get is TO and not FROM. *)
Lemma routeMask_before_start_counterexample :
  let r := migration 1000 (-600) in
  let req := at_time 500 in
  DeleteLike op_get = false /\
  tp_ r req < startTimeSec_ r /\
  routeMask r req op_get = kToMask /\
  routeMask r req op_get <> kFromMask.
Proof. cbn zeta. repeat split; try reflexivity; cbn; (lia || discriminate). Qed.

(** The amended C3 at the three regions of the scenario. *)
Lemma routeMask_deleteLike_regions_witness :
  routeMask (migration 1000 100) (at_time 500) op_delete = kFromMask /\
  routeMask (migration 1000 100) (at_time 1150) op_delete
  = Z.lor kFromMask kToMask /\
  routeMask (migration 1000 100) (at_time 1300) op_delete = kToMask.
Proof.
  assert (TimeT.in_range 200) as H200 by (apply small_in_range; lia).
  assert (TimeT.in_range 1200) as H1200 by (apply small_in_range; lia).
  split; [| split].
  - pose proof (routeMask_deleteLike_regions (migration 1000 100)
                  (at_time 500) op_delete eq_refl H200 H1200) as (H & _ & _).
    apply H. simpl. lia.
  - pose proof (routeMask_deleteLike_regions (migration 1000 100)
                  (at_time 1150) op_delete eq_refl H200 H1200) as (_ & H & _).
    apply H. simpl. lia.
  - pose proof (routeMask_deleteLike_regions (migration 1000 100)
                  (at_time 1300) op_delete eq_refl H200 H1200) as (_ & _ & H).
    apply H; simpl; lia.
Defined.

(** C4 on both sides of the switch point and at it. *)
Lemma routeMask_other_regions_witness :
  routeMask (migration 1000 100) (at_time 1050) op_get = kFromMask /\
  routeMask (migration 1000 100) (at_time 1150) op_get = kToMask /\
  routeMask (migration 1000 100) (at_time 1100) op_set = kToMask.
Proof.
  assert (TimeT.in_range 1100) as H1100 by (apply small_in_range; lia).
  split; [| split].
  - pose proof (routeMask_other_regions (migration 1000 100) (at_time 1050)
                  op_get eq_refl H1100) as (H & _ & _).
    apply H. simpl. lia.
  - pose proof (routeMask_other_regions (migration 1000 100) (at_time 1150)
                  op_get eq_refl H1100) as (_ & H & _).
    apply H. simpl. lia.
  - pose proof (routeMask_other_regions (migration 1000 100) (at_time 1100)
                  op_set eq_refl H1100) as (_ & _ & H).
    apply H. reflexivity.
Defined.

(** The amended C8 for a delete under a negative interval and for a get
    under a positive one. *)
Lemma routeMask_before_start_witness :
  routeMask (migration 1000 (-600)) (at_time 500) op_delete = kFromMask /\
  routeMask (migration 1000 100) (at_time 500) op_get = kFromMask.
Proof.
  split.
  - apply (routeMask_before_start (migration 1000 (-600)) (at_time 500)
             op_delete); [simpl; lia | discriminate].
  - apply (routeMask_before_start (migration 1000 100) (at_time 500) op_get);
      [simpl; lia |].
    intros _. split; [simpl; lia | apply small_in_range; simpl; lia].
Defined.

(** C5 inside the window of the scenario. *)
Lemma couldRouteTo_matches_route_witness :
  result (couldRouteTo (migration 1000 100) (at_time 1050) op_delete)
  = [constant_handle good; constant_handle bad].
Proof.
  apply (couldRouteTo_matches_route (migration 1000 100) FromFirst
           (at_time 1050) op_delete).
  reflexivity.
Defined.

(** The amended C1 in the scenario, [to_] completing first. *)
Lemma route_dual_returns_worse_witness :
  exists x,
    result (route (migration 1000 100) ToFirst (at_time 1050) op_delete)
    = Some x /\
    x = (if worseThan good bad then good else bad) /\
    worst_of x bad good /\
    (tied bad good = true -> x = bad).
Proof.
  apply (route_dual_returns_worse (migration 1000 100) ToFirst (at_time 1050)
           op_delete TestReply_asymmetric).
  reflexivity.
Defined.

(** C2 in the scenario. *)
Lemma route_delete_inside_window_witness :
  calls (route (migration 1000 100) FromFirst (at_time 1050) op_delete)
  = [FromHandle; ToHandle] /\
  exists x,
    result (route (migration 1000 100) FromFirst (at_time 1050) op_delete)
    = Some x /\ worst_of x good bad.
Proof.
  assert (DeleteLike op_delete = true) as Hdel by reflexivity.
  destruct (route_delete_inside_window (migration 1000 100) FromFirst
              (at_time 1050) op_delete TestReply_asymmetric
              eq_refl eq_refl eq_refl Hdel) as (_ & Hc & _ & _ & Hx).
  split; [exact Hc | exact Hx].
Defined.

(** C9 on the two replies of the scenario. *)
Lemma reconcile_commutes_when_not_tied_witness :
  reconcile good bad = reconcile bad good /\
  result (route (migration 1000 100) FromFirst (at_time 1050) op_delete)
  = result (route (migration 1000 100) ToFirst (at_time 1050) op_delete).
Proof.
  destruct (reconcile_commutes_when_not_tied
              (Request := TestRequest) (Operation := TestOperation)
              TestReply_asymmetric) as [Hcomm Hroute].
  split.
  - apply Hcomm. reflexivity.
  - apply (Hroute (migration 1000 100) (at_time 1050) op_delete);
      reflexivity.
Defined.

Example config_with_interval :
  MigrateRoute_config test_factory
    (config [("start_time", folly.INT64 1000); ("interval", folly.INT64 100);
             ("from", folly.STRING "old"); ("to", folly.STRING "new")]) now
  = Returns (mkMigrateRoute (constant_handle (mkReply 0 "old"))
                            (constant_handle (mkReply 0 "new")) 1000 100 now).
Proof. vm_compute. reflexivity. Qed.

Example config_null_handle :
  MigrateRoute_config test_factory
    (config [("start_time", folly.INT64 1000);
             ("from", folly.NULLT); ("to", folly.STRING "new")]) now
  = Aborts.
Proof. vm_compute. reflexivity. Qed.

(** C6 on an array, on a configuration whose [start_time] is a string, on
    one whose [interval] is a double, and on a valid configuration
    without [interval]. *)
Lemma MigrateRoute_config_rejects_witness :
  MigrateRoute_config test_factory (folly.ARRAY []) now
  = Throws (logic_error "MigrateRoute should be object") /\
  MigrateRoute_config test_factory
    (config [("start_time", folly.STRING "1000");
             ("from", folly.STRING "old"); ("to", folly.STRING "new")]) now
  = Throws (logic_error "MigrateRoute has no/invalid start_time") /\
  (exists msg, msg ∈ diagnostics /\
     MigrateRoute_config test_factory
       (config [("start_time", folly.INT64 1000); ("interval", folly.DOUBLE 0);
                ("from", folly.STRING "old"); ("to", folly.STRING "new")]) now
     = Throws (logic_error msg)) /\
  MigrateRoute_config test_factory valid_config now
  = Returns (mkMigrateRoute (constant_handle (mkReply 0 "old"))
                            (constant_handle (mkReply 0 "new")) 1000 3600 now).
Proof.
  split; [| split; [| split]].
  - apply (MigrateRoute_config_rejects test_factory (folly.ARRAY []) now).
    reflexivity.
  - eapply (MigrateRoute_config_rejects test_factory _ now);
      [reflexivity | vm_compute; reflexivity].
  - apply (MigrateRoute_config_rejects test_factory _ now).
    vm_compute. reflexivity.
  - eapply (MigrateRoute_config_rejects test_factory valid_config now);
      [reflexivity | vm_compute; reflexivity ..].
Defined.

End ScenarioProperties.

(** * Further properties of the header *)

(** ** The schedule over time and across operation classes *)

Section Schedule.

Context {Request Reply Operation : Type}.
Context `{!ReplyIf Reply} `{!OperationTraits Operation}.

Abbreviation Route := (MigrateRoute Request Reply Operation).

Implicit Types (r : Route) (req : Request) (op : Operation).
Implicit Types (done : Completion) (d : Dest).

(** The two overloads with their thresholds written in [Z], for a
    schedule whose thresholds are representable. *)
Lemma routeMask_deleteLike_exact r req :
  TimeT.in_range (2 * intervalSec_ r) ->
  TimeT.in_range (startTimeSec_ r + 2 * intervalSec_ r) ->
  routeMask_deleteLike r req
  = if tp_ r req <? startTimeSec_ r then kFromMask
    else if tp_ r req <? startTimeSec_ r + 2 * intervalSec_ r
         then Z.lor kFromMask kToMask
         else kToMask.
Proof.
  intros H2 Hend. unfold routeMask_deleteLike.
  now rewrite window_end_exact by assumption.
Qed.

Lemma routeMask_other_exact r req :
  TimeT.in_range (startTimeSec_ r + intervalSec_ r) ->
  routeMask_other r req
  = if tp_ r req <? startTimeSec_ r + intervalSec_ r then kFromMask
    else kToMask.
Proof. intros Hsw. unfold routeMask_other. now rewrite add_exact. Qed.

Ltac by_thresholds r req :=
  destruct (Z.ltb_spec (tp_ r req) (startTimeSec_ r));
  destruct (Z.ltb_spec (tp_ r req) (startTimeSec_ r + intervalSec_ r));
  destruct (Z.ltb_spec (tp_ r req) (startTimeSec_ r + 2 * intervalSec_ r));
  try reflexivity; try discriminate; try lia.

(** X1: whatever the schedule, the operation and the comparison of
    replies, [route] returns a reply, and it is the reply of a handle it
    called. *)
Theorem route_returns_reply_of_called r done req op :
  exists d,
    d ∈ calls (route r done req op) /\
    result (route r done req op) = Some (reply_of r d req op).
Proof.
  rewrite route_calls. unfold result, selected.
  destruct (routeMask_cases r req op) as [Hm | [Hm | Hm]].
  - exists FromHandle. rewrite route_from, Hm by exact Hm.
    split; [set_solver | reflexivity].
  - exists ToHandle. rewrite route_to, Hm by exact Hm.
    split; [set_solver | reflexivity].
  - rewrite route_both, Hm, reconcile_eq by exact Hm. cbn [fst].
    destruct (worseThan _ _).
    + exists (second_done done). split; [destruct done; set_solver | reflexivity].
    + exists (first_done done). split; [destruct done; set_solver | reflexivity].
Qed.

(** X2: an operation that is not delete-like is never sent to both
    handles: under every schedule [route] makes exactly one call and
    returns the reply of the handle called, unchanged. *)
Theorem route_other_single_call r done req op :
  DeleteLike op = false ->
  exists d,
    calls (route r done req op) = [d] /\
    result (route r done req op) = Some (reply_of r d req op).
Proof.
  intros Hdel.
  assert (routeMask r req op = kFromMask \/ routeMask r req op = kToMask)
    as [Hm | Hm].
  { unfold routeMask, routeMask_other. rewrite Hdel. case_match; auto. }
  - exists FromHandle. unfold calls, result. now rewrite route_from.
  - exists ToHandle. unfold calls, result. now rewrite route_to.
Qed.

(** X3: under a schedule with a non-negative interval, every handle that
    is called for an operation that is not delete-like is also called for
    a delete-like operation routed at the same time. *)
Theorem delete_reaches_handles_of_other r done done' req op op' :
  representable r -> 0 <= intervalSec_ r ->
  DeleteLike op = false -> DeleteLike op' = true ->
  calls (route r done req op) ⊆ calls (route r done' req op').
Proof.
  intros (Hdbl & Hsw & Hend) Hi Hop Hop'. rewrite !route_calls.
  unfold selected, routeMask. rewrite Hop, Hop'.
  rewrite routeMask_deleteLike_exact, routeMask_other_exact by assumption.
  by_thresholds r req; intros d; rewrite !list_elem_of_In; vm_compute; tauto.
Qed.

(** X4: the migration never goes back. Between two requests, the second
    routed no earlier than the first, [to_] stays selected once it is, and
    [from_] is not selected again once it is not; this holds for every
    schedule and every operation. *)
Theorem routeMask_monotone r req req' op :
  tp_ r req <= tp_ r req' ->
  (selects (routeMask r req op) ToHandle = true ->
   selects (routeMask r req' op) ToHandle = true) /\
  (selects (routeMask r req op) FromHandle = false ->
   selects (routeMask r req' op) FromHandle = false).
Proof.
  intros Hle. unfold routeMask, routeMask_deleteLike, routeMask_other.
  set (T2 := TimeT.add _ (TimeT.mul _ _)). set (T1 := TimeT.add _ _).
  destruct (DeleteLike op).
  - destruct (Z.ltb_spec (tp_ r req) (startTimeSec_ r)),
             (Z.ltb_spec (tp_ r req') (startTimeSec_ r)),
             (Z.ltb_spec (tp_ r req) T2), (Z.ltb_spec (tp_ r req') T2);
      split; intros Hsel; try reflexivity; try discriminate; lia.
  - destruct (Z.ltb_spec (tp_ r req) T1), (Z.ltb_spec (tp_ r req') T1);
      split; intros Hsel; try reflexivity; try discriminate; lia.
Qed.

(** X5: an operation is sent to both handles exactly when it is
    delete-like and [startTime <= now < startTime + 2 * interval]. *)
Theorem dual_dispatch_iff r req op :
  representable r ->
  routeMask r req op = Z.lor kFromMask kToMask <->
  DeleteLike op = true /\
  startTimeSec_ r <= tp_ r req < startTimeSec_ r + 2 * intervalSec_ r.
Proof.
  intros (H2 & Hsw & Hend). unfold routeMask.
  rewrite routeMask_deleteLike_exact, routeMask_other_exact by assumption.
  destruct (DeleteLike op); by_thresholds r req;
    (split; [discriminate || (intros _; split; [reflexivity | lia])
            | intros [? ?]; (reflexivity || discriminate || lia)]).
Qed.

(** X6: under a schedule whose interval is zero or negative no operation
    is ever sent to both handles, and a delete-like operation goes to
    [from_] before [startTime] and to [to_] from [startTime] on. *)
Theorem nonpositive_interval_no_dual r done req op :
  representable r -> intervalSec_ r <= 0 ->
  length (calls (route r done req op)) = 1%nat /\
  (DeleteLike op = true ->
   routeMask r req op
   = if tp_ r req <? startTimeSec_ r then kFromMask else kToMask).
Proof.
  intros (H2 & Hsw & Hend) Hi. rewrite route_calls.
  unfold selected, routeMask.
  rewrite routeMask_deleteLike_exact, routeMask_other_exact by assumption.
  destruct (DeleteLike op); by_thresholds r req; split; try reflexivity;
    intros; try reflexivity; discriminate.
Qed.

(** X7: under a schedule with a non-negative interval the operation class
    does not matter outside the window: before [startTime] every
    operation is sent to [from_] alone and gets its reply, and from
    [startTime + 2 * interval] on every operation is sent to [to_] alone
    and gets its reply. *)
Theorem outside_window_single_handle r done req op :
  representable r -> 0 <= intervalSec_ r ->
  (tp_ r req < startTimeSec_ r ->
   route r done req op [] = (Some (reply_of r FromHandle req op), [FromHandle])) /\
  (startTimeSec_ r + 2 * intervalSec_ r <= tp_ r req ->
   route r done req op [] = (Some (reply_of r ToHandle req op), [ToHandle])).
Proof.
  intros (H2 & Hsw & Hend) Hi.
  split; intros Hnow.
  - apply route_from. unfold routeMask.
    rewrite routeMask_deleteLike_exact, routeMask_other_exact by assumption.
    destruct (DeleteLike op); by_thresholds r req.
  - apply route_to. unfold routeMask.
    rewrite routeMask_deleteLike_exact, routeMask_other_exact by assumption.
    destruct (DeleteLike op); by_thresholds r req.
Qed.

End Schedule.

(** ** The two constructors *)

Section Constructors.

Context {Request Reply Operation : Type}.

Abbreviation Handle := (RouteHandleIf Request Reply Operation).
Abbreviation Route := (MigrateRoute Request Reply Operation).
Abbreviation Factory := (RouteHandleFactory Request Reply Operation).

Implicit Types (factory : Factory) (json : folly.dynamic).
Implicit Types (items : gmap string folly.dynamic).
Implicit Types (tp : Request -> TimeT.t) (fh th : option Handle).

(** The constructor on a configuration that passes its checks: what is
    left is the resolution of the two handles and the two asserts. *)
Lemma MigrateRoute_config_checked factory items s jfrom jto tp :
  items !! "start_time" = Some (folly.INT64 s) ->
  items !! "from" = Some jfrom -> items !! "to" = Some jto ->
  present items "interval" && negb (present_int items "interval") = false ->
  MigrateRoute_config factory (folly.OBJECT items) tp
  = (from ← create factory jfrom;
     to ← create factory jto;
     from ← assert_not_null from;
     to ← assert_not_null to;
     mret (mkMigrateRoute from to s (config_interval items) tp)).
Proof.
  intros Hs Hf Ht Hi. rewrite MigrateRoute_config_eq, Hs, Hf, Ht.
  unfold present, present_int, config_interval in *.
  destruct (items !! "interval") as [[]|]; try reflexivity; discriminate.
Qed.

(** X8: the constructor taking the handles returns a route exactly when
    both handles are non-null, and the route then holds the arguments as
    given; with a null handle it aborts; it never throws. *)
Theorem MigrateRoute_direct_outcome fh th s i tp :
  (forall r, MigrateRoute_direct fh th s i tp = Returns r <->
             fh = Some (from_ r) /\ th = Some (to_ r) /\
             startTimeSec_ r = s /\ intervalSec_ r = i /\ tp_ r = tp) /\
  (MigrateRoute_direct fh th s i tp = Aborts <-> fh = None \/ th = None) /\
  (forall e, MigrateRoute_direct fh th s i tp <> Throws e).
Proof.
  unfold MigrateRoute_direct.
  destruct fh as [f|], th as [t|]; cbn; (split; [| split]).
  all: try (intros e; discriminate).
  all: try (intros r; split;
            [ intros Hr; try discriminate Hr; injection Hr as <-; cbn; tauto
            | destruct r; cbn; intros (Hf & Ht & -> & -> & ->);
              try discriminate; injection Hf as ->; injection Ht as ->;
              reflexivity ]).
  all: split; [ try discriminate; intros _; auto
              | intros [Hn | Hn]; try discriminate; reflexivity ].
Qed.

(** A route that comes out of the resolution of the two handles holds
    the non-null results of the factory and the schedule given. *)
Lemma resolve_handles_returns_inv factory jfrom jto s i tp r :
  (from ← create factory jfrom;
   to ← create factory jto;
   from ← assert_not_null from;
   to ← assert_not_null to;
   mret (mkMigrateRoute from to s i tp)) = Returns r ->
  create factory jfrom = Returns (Some (from_ r)) /\
  create factory jto = Returns (Some (to_ r)) /\
  startTimeSec_ r = s /\ intervalSec_ r = i /\ tp_ r = tp.
Proof.
  destruct (create factory jfrom) as [[f|]| |]; cbn;
    destruct (create factory jto) as [[t|]| |]; cbn; try discriminate.
  now intros [= <-].
Qed.

(** X9: when the constructor taking a configuration returns a route, the
    configuration is one of those it must accept, the route holds its
    [start_time], its [interval] (3600 when absent) and the time provider
    given, and its handles are the non-null results of the factory on
    [from] and [to]. *)
Theorem MigrateRoute_config_returns_sound factory json tp r :
  MigrateRoute_config factory json tp = Returns r ->
  config_invalid json = false /\
  exists items s jfrom jto,
    json = folly.OBJECT items /\
    items !! "start_time" = Some (folly.INT64 s) /\
    items !! "from" = Some jfrom /\ items !! "to" = Some jto /\
    create factory jfrom = Returns (Some (from_ r)) /\
    create factory jto = Returns (Some (to_ r)) /\
    startTimeSec_ r = s /\ intervalSec_ r = config_interval items /\
    tp_ r = tp.
Proof.
  rewrite MigrateRoute_config_eq.
  destruct json as [| | | | | items |]; try discriminate.
  unfold config_invalid, present, present_int, config_interval.
  destruct (items !! "start_time") as [[| | | |s| |]|] eqn:Hs;
    try discriminate.
  destruct (items !! "from") as [jfrom|] eqn:Hf; try discriminate.
  destruct (items !! "to") as [jto|] eqn:Ht; try discriminate.
  destruct (items !! "interval") as [[| | | |i| |]|] eqn:Hi; cbn;
    try discriminate; intros Hr; apply resolve_handles_returns_inv in Hr;
    destruct Hr as (Hcf & Hct & Hstart & Hinterval & Htp);
    (split; [reflexivity |]); exists items, s, jfrom, jto;
    rewrite Hi; repeat split; assumption.
Qed.

(** X10: the constructor taking a configuration does not validate the sign
    of [interval]: any integer, zero and negative ones included, is
    stored as the interval of the route. *)
Theorem MigrateRoute_config_takes_any_interval
    factory items s i jfrom jto from to tp :
  items !! "start_time" = Some (folly.INT64 s) ->
  items !! "interval" = Some (folly.INT64 i) ->
  items !! "from" = Some jfrom -> items !! "to" = Some jto ->
  create factory jfrom = Returns (Some from) ->
  create factory jto = Returns (Some to) ->
  MigrateRoute_config factory (folly.OBJECT items) tp
  = Returns (mkMigrateRoute from to s i tp).
Proof.
  intros Hs Hi Hf Ht Hcf Hct.
  rewrite (MigrateRoute_config_checked factory items s jfrom jto tp)
    by (try assumption; unfold present, present_int; now rewrite Hi).
  unfold config_interval. rewrite Hi, Hcf. cbn. rewrite Hct. reflexivity.
Qed.

(** X11: on a configuration that passes the checks, the constructor taking
    a configuration does what the constructor taking the handles does on
    the two pointers the factory returns: a null pointer from the factory
    is an abort, not an exception. *)
Theorem MigrateRoute_config_as_direct factory items s jfrom jto fh th tp :
  items !! "start_time" = Some (folly.INT64 s) ->
  items !! "from" = Some jfrom -> items !! "to" = Some jto ->
  present items "interval" && negb (present_int items "interval") = false ->
  create factory jfrom = Returns fh -> create factory jto = Returns th ->
  MigrateRoute_config factory (folly.OBJECT items) tp
  = MigrateRoute_direct fh th s (config_interval items) tp.
Proof.
  intros Hs Hf Ht Hi Hcf Hct.
  rewrite (MigrateRoute_config_checked factory items s jfrom jto tp)
    by assumption.
  rewrite Hcf. cbn. rewrite Hct. reflexivity.
Qed.

(** X12: an exception of the factory leaves the constructor as it is
    thrown, for [from] and for [to]; since both handles are resolved
    before either assert, an exception on [to] wins over a null [from]. *)
Theorem MigrateRoute_config_factory_throws factory items s jfrom jto tp e :
  items !! "start_time" = Some (folly.INT64 s) ->
  items !! "from" = Some jfrom -> items !! "to" = Some jto ->
  present items "interval" && negb (present_int items "interval") = false ->
  (create factory jfrom = Throws e ->
   MigrateRoute_config factory (folly.OBJECT items) tp = Throws e) /\
  (forall fh, create factory jfrom = Returns fh ->
   create factory jto = Throws e ->
   MigrateRoute_config factory (folly.OBJECT items) tp = Throws e).
Proof.
  intros Hs Hf Ht Hi.
  rewrite (MigrateRoute_config_checked factory items s jfrom jto tp)
    by assumption.
  split.
  - intros ->. reflexivity.
  - intros fh -> ->. reflexivity.
Qed.

(** X13: the checks are made in the order [start_time], [from], [to],
    [interval], before the factory is used: with an integer [start_time],
    a missing [from] is reported whatever the rest holds, then a missing
    [to], then an [interval] that is not an integer, whatever the factory
    would do. *)
Theorem MigrateRoute_config_check_order factory items s tp :
  items !! "start_time" = Some (folly.INT64 s) ->
  (items !! "from" = None ->
   MigrateRoute_config factory (folly.OBJECT items) tp
   = Throws (logic_error "MigrateRoute has no 'from' route")) /\
  (present items "from" = true -> items !! "to" = None ->
   MigrateRoute_config factory (folly.OBJECT items) tp
   = Throws (logic_error "MigrateRoute has no 'to' route")) /\
  (present items "from" = true -> present items "to" = true ->
   present items "interval" = true -> present_int items "interval" = false ->
   MigrateRoute_config factory (folly.OBJECT items) tp
   = Throws (logic_error "MigrateRoute interval is not integer")).
Proof.
  intros Hs. rewrite MigrateRoute_config_eq, Hs. unfold present, present_int.
  repeat split.
  - intros ->. reflexivity.
  - destruct (items !! "from"); [| discriminate]. intros _ ->. reflexivity.
  - destruct (items !! "from"); [| discriminate].
    destruct (items !! "to"); [| discriminate].
    destruct (items !! "interval") as [[]|]; try reflexivity; discriminate.
Qed.

(** X14: entries of the configuration under keys other than
    [start_time], [interval], [from] and [to] do not change what the
    constructor does. *)
Theorem MigrateRoute_config_ignores_other_keys factory items key v tp :
  key ∉ config_keys ->
  MigrateRoute_config factory (folly.OBJECT (<[key := v]> items)) tp
  = MigrateRoute_config factory (folly.OBJECT items) tp.
Proof.
  intros Hkey. unfold config_keys in Hkey.
  rewrite !MigrateRoute_config_eq.
  rewrite !lookup_insert_ne by set_solver. reflexivity.
Qed.

(** X15: a route built from a configuration without [interval] has the
    one-hour default in its schedule: delete-like operations go to both
    handles during the 7200 seconds that follow [start_time], the other
    operations switch to [to_] 3600 seconds after it, the time being read
    through the time provider given to the constructor. *)
Theorem configured_default_schedule `{!OperationTraits Operation}
    factory items tp r req op :
  MigrateRoute_config factory (folly.OBJECT items) tp = Returns r ->
  items !! "interval" = None ->
  TimeT.in_range (startTimeSec_ r + 7200) ->
  TimeT.in_range (startTimeSec_ r + 3600) ->
  items !! "start_time" = Some (folly.INT64 (startTimeSec_ r)) /\
  routeMask r req op
  = if DeleteLike op
    then if tp req <? startTimeSec_ r then kFromMask
         else if tp req <? startTimeSec_ r + 7200
              then Z.lor kFromMask kToMask
              else kToMask
    else if tp req <? startTimeSec_ r + 3600 then kFromMask else kToMask.
Proof.
  intros Hr Hi H2 H1. rewrite MigrateRoute_config_eq, Hi in Hr.
  destruct (items !! "start_time") as [[| | | |s| |]|]; try discriminate.
  destruct (items !! "from") as [jfrom|]; try discriminate.
  destruct (items !! "to") as [jto|]; try discriminate.
  apply resolve_handles_returns_inv in Hr
    as (_ & _ & Hstart & Hint & Htp).
  split; [now rewrite Hstart |].
  unfold routeMask, routeMask_deleteLike, routeMask_other.
  rewrite Hint, Htp.
  rewrite window_end_exact, add_exact; try assumption; try reflexivity.
  unfold TimeT.in_range, TimeT.min_value, TimeT.max_value. cbn. lia.
Qed.

End Constructors.

(** ** The further properties on the concrete instance *)

Section ScenarioFurther.

Import Scenario.

Lemma migration_representable s i :
  -100000 <= s <= 100000 -> -100000 <= i <= 100000 ->
  representable (migration s i).
Proof.
  intros Hs Hi. unfold representable; cbn.
  repeat split; apply small_in_range; lia.
Qed.

Lemma route_other_single_call_witness :
  exists d,
    calls (route (migration 1000 100) FromFirst (at_time 1150) op_get) = [d] /\
    result (route (migration 1000 100) FromFirst (at_time 1150) op_get)
    = Some (reply_of (migration 1000 100) d (at_time 1150) op_get).
Proof.
  apply (route_other_single_call (migration 1000 100) FromFirst (at_time 1150)
           op_get).
  reflexivity.
Defined.

Lemma delete_reaches_handles_of_other_witness :
  calls (route (migration 1000 100) FromFirst (at_time 1150) op_get)
  ⊆ calls (route (migration 1000 100) ToFirst (at_time 1150) op_delete).
Proof.
  apply (delete_reaches_handles_of_other (migration 1000 100) FromFirst ToFirst
           (at_time 1150) op_get op_delete).
  - apply migration_representable; lia.
  - simpl. lia.
  - reflexivity.
  - reflexivity.
Defined.

Lemma routeMask_monotone_witness :
  selects (routeMask (migration 1000 100) (at_time 1300) op_delete) ToHandle
  = true /\
  selects (routeMask (migration 1000 100) (at_time 1300) op_get) FromHandle
  = false.
Proof.
  split.
  - apply (routeMask_monotone (migration 1000 100) (at_time 1050)
             (at_time 1300) op_delete); [simpl; lia | reflexivity].
  - apply (routeMask_monotone (migration 1000 100) (at_time 1150)
             (at_time 1300) op_get); [simpl; lia | reflexivity].
Defined.

Lemma dual_dispatch_iff_witness :
  routeMask (migration 1000 100) (at_time 1050) op_delete
  = Z.lor kFromMask kToMask.
Proof.
  apply (dual_dispatch_iff (migration 1000 100) (at_time 1050) op_delete).
  - apply migration_representable; lia.
  - split; [reflexivity | simpl; lia].
Defined.

Lemma nonpositive_interval_no_dual_witness :
  length (calls (route (migration 1000 (-100)) FromFirst (at_time 900)
                   op_delete)) = 1%nat /\
  routeMask (migration 1000 0) (at_time 1000) op_delete = kToMask.
Proof.
  split.
  - apply (nonpositive_interval_no_dual (migration 1000 (-100)) FromFirst
             (at_time 900) op_delete);
      [apply migration_representable; lia | simpl; lia].
  - assert (representable (migration 1000 0)) as Hrep
      by (apply migration_representable; lia).
    assert (intervalSec_ (migration 1000 0) <= 0) as Hi by (simpl; lia).
    destruct (nonpositive_interval_no_dual (migration 1000 0) FromFirst
                (at_time 1000) op_delete Hrep Hi) as [_ Hmask].
    rewrite Hmask; reflexivity.
Defined.

Lemma outside_window_single_handle_witness :
  route (migration 1000 100) FromFirst (at_time 500) op_delete []
  = (Some good, [FromHandle]) /\
  route (migration 1000 100) FromFirst (at_time 1200) op_delete []
  = (Some bad, [ToHandle]).
Proof.
  assert (representable (migration 1000 100)) as Hrep
    by (apply migration_representable; lia).
  assert (0 <= intervalSec_ (migration 1000 100)) as Hi by (simpl; lia).
  split.
  - destruct (outside_window_single_handle (migration 1000 100) FromFirst
                (at_time 500) op_delete Hrep Hi) as [H _].
    apply H. simpl. lia.
  - destruct (outside_window_single_handle (migration 1000 100) FromFirst
                (at_time 1200) op_delete Hrep Hi) as [_ H].
    apply H. simpl. lia.
Defined.

Lemma MigrateRoute_direct_outcome_witness :
  MigrateRoute_direct None (Some (constant_handle bad)) 1000 100 now = Aborts.
Proof.
  apply (MigrateRoute_direct_outcome None (Some (constant_handle bad))
           1000 100 now).
  left. reflexivity.
Defined.

Lemma MigrateRoute_config_returns_sound_witness :
  config_invalid (folly.OBJECT (scenario_items None)) = false /\
  startTimeSec_ (scenario_route 3600) = 1000.
Proof.
  destruct (MigrateRoute_config_returns_sound test_factory
              (folly.OBJECT (scenario_items None)) now (scenario_route 3600))
    as (Hvalid & items & s & jfrom & jto & Hjson & Hs & _ & _ & _ & _
        & Hstart & _).
  - vm_compute. reflexivity.
  - split; [exact Hvalid |]. injection Hjson as <-.
    rewrite Hstart. vm_compute in Hs. now injection Hs.
Defined.

Lemma MigrateRoute_config_takes_any_interval_witness :
  MigrateRoute_config test_factory
    (folly.OBJECT (scenario_items (Some (-100)))) now
  = Returns (scenario_route (-100)).
Proof.
  apply (MigrateRoute_config_takes_any_interval test_factory
           (scenario_items (Some (-100))) 1000 (-100)
           (folly.STRING "old") (folly.STRING "new"));
    vm_compute; reflexivity.
Defined.

Lemma MigrateRoute_config_as_direct_witness :
  MigrateRoute_config test_factory
    (folly.OBJECT (<["from" := folly.NULLT]> (scenario_items None))) now
  = MigrateRoute_direct None (Some (constant_handle (mkReply 0 "new")))
      1000 3600 now.
Proof.
  rewrite (MigrateRoute_config_as_direct test_factory
             (<["from" := folly.NULLT]> (scenario_items None)) 1000
             folly.NULLT (folly.STRING "new")
             None (Some (constant_handle (mkReply 0 "new"))) now);
    vm_compute; reflexivity.
Defined.

Lemma MigrateRoute_config_factory_throws_witness :
  MigrateRoute_config strict_factory
    (folly.OBJECT (<["to" := folly.BOOL true]>
                     (<["from" := folly.NULLT]> (scenario_items None)))) now
  = Throws (logic_error "unknown route").
Proof.
  eapply (MigrateRoute_config_factory_throws strict_factory
            (<["to" := folly.BOOL true]>
               (<["from" := folly.NULLT]> (scenario_items None))) 1000
            folly.NULLT (folly.BOOL true));
    vm_compute; reflexivity.
Defined.

Lemma MigrateRoute_config_check_order_witness :
  MigrateRoute_config test_factory
    (folly.OBJECT (delete "from" (scenario_items (Some 100)))) now
  = Throws (logic_error "MigrateRoute has no 'from' route") /\
  MigrateRoute_config test_factory
    (folly.OBJECT (<["interval" := folly.STRING "100"]> (scenario_items None)))
    now
  = Throws (logic_error "MigrateRoute interval is not integer").
Proof.
  split.
  - apply (MigrateRoute_config_check_order test_factory
             (delete "from" (scenario_items (Some 100))) 1000 now);
      vm_compute; reflexivity.
  - apply (MigrateRoute_config_check_order test_factory
             (<["interval" := folly.STRING "100"]> (scenario_items None))
             1000 now);
      vm_compute; reflexivity.
Defined.

Lemma MigrateRoute_config_ignores_other_keys_witness :
  MigrateRoute_config test_factory
    (folly.OBJECT (<["comment" := folly.STRING "x"]> (scenario_items None))) now
  = MigrateRoute_config test_factory (folly.OBJECT (scenario_items None)) now.
Proof.
  apply (MigrateRoute_config_ignores_other_keys test_factory
           (scenario_items None) "comment" (folly.STRING "x") now).
  unfold config_keys. rewrite !not_elem_of_cons. repeat split;
    try discriminate. apply not_elem_of_nil.
Defined.

Lemma configured_default_schedule_witness :
  routeMask (scenario_route 3600) (at_time 8199) op_delete
  = Z.lor kFromMask kToMask /\
  routeMask (scenario_route 3600) (at_time 4600) op_get = kToMask.
Proof.
  assert (MigrateRoute_config test_factory (folly.OBJECT (scenario_items None))
            now = Returns (scenario_route 3600)) as Hr
    by (vm_compute; reflexivity).
  assert (scenario_items None !! "interval" = None) as Hi
    by (vm_compute; reflexivity).
  assert (TimeT.in_range (startTimeSec_ (scenario_route 3600) + 7200)) as H2
    by (apply small_in_range; simpl; lia).
  assert (TimeT.in_range (startTimeSec_ (scenario_route 3600) + 3600)) as H1
    by (apply small_in_range; simpl; lia).
  split.
  - destruct (configured_default_schedule test_factory (scenario_items None)
                now (scenario_route 3600) (at_time 8199) op_delete
                Hr Hi H2 H1) as [_ Hm].
    rewrite Hm. reflexivity.
  - destruct (configured_default_schedule test_factory (scenario_items None)
                now (scenario_route 3600) (at_time 4600) op_get
                Hr Hi H2 H1) as [_ Hm].
    rewrite Hm. reflexivity.
Defined.

End ScenarioFurther.
